(** * vs-buddy: usage sessions, their persisted log and the usage report

    A shallow embedding of [src/extension.ts].  The extension keeps one
    module-level [currentSession], saves a closed session into the host's
    [globalState] memento under the key ['usageData'], and renders the
    stored log as an HTML page with an embedded charting script.

    Conventions of the embedding.
    - A TypeScript [number] that holds a millisecond count is a [Z].  All
      the arithmetic of the extension on such numbers ([+], [-],
      [Math.floor (x / c)], [%]) is exact on the safe integers of an IEEE
      double, which is where epoch milliseconds live, so [Z] with floor
      division ([Z.div]) and truncating remainder ([Z.rem]) computes what
      the script computes.  The one place where the script leaves the
      integers, the bar percentage [(value / maxValue) * 100], is embedded
      with binary64 arithmetic ([SpecFloat]).
    - [T | null] is [option T]; JavaScript truthiness of a nullable number
      ([if (d)], [d || 0]) is written out in [truthy] and [or_zero].
    - [`${n}`] and [n + 'h'] on an integer [n] print its decimal digits.
    - A string is a [string]; its characters stand for the code units
      of the JavaScript string, which for the dates of the log are ASCII.
    - A [Date] is the pair of its two observations used by the source.
    - The ES [Map] keeps its entries in insertion order: an association
      list, [JsMap].  The memento is a finite map from keys to values,
      together with the list of [update] calls it has received. *)

From Stdlib Require Import ZArith List Ascii String DecimalString Permutation Sorted Lia.
From Stdlib Require Import Floats.SpecFloat.
From Stdlib Require DecimalZ.
From stdpp Require Import base option list sorting strings gmap.
Import ListNotations.

Local Open Scope string_scope.
Local Open Scope Z_scope.

(** ** Data model (extension.ts, lines 5-18) *)

Record UsageSession := mkSession {
  startTime : Z;
  endTime : option Z;
  date : string;
  duration : option Z
}.

Record UsageData := mkUsageData {
  sessions : list UsageSession;
  totalTimeMs : Z
}.

(** [new Date()]: the instant, as read by [getTime()] and [toISOString()]. *)
Record Date := mkDate {
  getTime : Z;
  toISOString : string
}.

(** [vscode.Memento]: the stored values, and the [update] calls received
    (most recent first). *)
Record Memento := mkMemento {
  stored : gmap string UsageData;
  updates : list (string * UsageData)
}.

(** The module-level variables [currentSession] and [globalState]. *)
Record State := mkState {
  currentSession : option UsageSession;
  globalState : Memento
}.

(** ** JavaScript primitives used by the source *)

Module Js.

(** [ToString] of an integral number. *)
Definition toString (n : Z) : string := NilZero.string_of_int (Z.to_int n).

(** [ToBoolean] of a [number | null]: [null] and [0] are falsy. *)
Definition truthy (d : option Z) : bool :=
  match d with
  | Some v => negb (v =? 0)
  | None => false
  end.

(** [d || 0] on a [number | null]. *)
Definition or_zero (d : option Z) : Z :=
  match d with
  | Some v => if v =? 0 then 0 else v
  | None => 0
  end.

(** [Math.floor (a / b)] for integral [a] and positive integral [b]. *)
Definition floor_div (a b : Z) : Z := a / b.

(** [a % b]: the remainder has the sign of the dividend. *)
Definition rem (a b : Z) : Z := Z.rem a b.

(** [s.split(c)[0]]: the part of [s] before the first [c]. *)
Fixpoint split_head (c : ascii) (s : string) : string :=
  match s with
  | EmptyString => EmptyString
  | String a s' => if Ascii.eqb a c then EmptyString else String a (split_head c s')
  end.

(** [memento.get(key)] and [memento.update(key, value)]. *)
Definition get (m : Memento) (key : string) : option UsageData :=
  stored m !! key.

Definition update (m : Memento) (key : string) (value : UsageData) : Memento :=
  {| stored := <[key := value]> (stored m);
     updates := (key, value) :: updates m |}.

End Js.

(** ** The insertion-ordered [Map<string, V>] *)

Module JsMap.
Section WithValue.
Context {V : Type}.

Definition t := list (string * V).

Definition empty : t := [].

Fixpoint get (m : t) (k : string) : option V :=
  match m with
  | [] => None
  | (k', v) :: m' => if String.eqb k' k then Some v else get m' k
  end.

Definition has (m : t) (k : string) : bool :=
  match get m k with Some _ => true | None => false end.

(** [set] overwrites the value of a present key where it stands and
    appends a new key at the end. *)
Fixpoint set (m : t) (k : string) (v : V) : t :=
  match m with
  | [] => [(k, v)]
  | (k', v') :: m' =>
      if String.eqb k' k then (k, v) :: m' else (k', v') :: set m' k v
  end.

Definition keys (m : t) : list string := map fst m.

Definition entries (m : t) : list (string * V) := m.
End WithValue.
Arguments t : clear implicits.
End JsMap.

(** ** Session tracker (lines 43-63) and aggregator (lines 65-74) *)

Definition emptyLog : UsageData := {| sessions := []; totalTimeMs := 0 |}.

Definition usageDataKey : string := "usageData".

Definition startNewSession (now : Date) (st : State) : State :=
  {| currentSession :=
       Some {| startTime := getTime now;
               endTime := None;
               date := Js.split_head "T"%char (toISOString now);
               duration := None |};
     globalState := globalState st |}.

(** [globalState.get('usageData') || { sessions: [], totalTimeMs: 0 }]:
    a stored object is always truthy. *)
Definition loadUsageData (m : Memento) : UsageData :=
  match Js.get m usageDataKey with
  | Some u => u
  | None => emptyLog
  end.

(** The in-memory part of [saveSession]: push, then the guarded [+=]. *)
Definition mergeSession (usageData : UsageData) (session : UsageSession) : UsageData :=
  {| sessions := (sessions usageData ++ [session])%list;
     totalTimeMs :=
       match duration session with
       | Some d =>
           if Js.truthy (Some d) then totalTimeMs usageData + d
           else totalTimeMs usageData
       | None => totalTimeMs usageData
       end |}.

Definition saveSession (session : UsageSession) (m : Memento) : Memento :=
  let usageData := loadUsageData m in
  Js.update m usageDataKey (mergeSession usageData session).

Definition endCurrentSession (now : Date) (st : State) : State :=
  match currentSession st with
  | Some cur =>
      let endT := getTime now in
      let closed :=
        {| startTime := startTime cur;
           endTime := Some endT;
           date := date cur;
           duration := Some (endT - startTime cur) |} in
      {| currentSession := None;
         globalState := saveSession closed (globalState st) |}
  | None => st
  end.

(** ** [formatDuration] (lines 76-85) and its copy in the page (lines 232-239) *)

Definition formatDuration (milliseconds : Z) : string :=
  let seconds := Js.floor_div milliseconds 1000 in
  let minutes := Js.floor_div seconds 60 in
  let hours := Js.floor_div minutes 60 in
  let remainingMinutes := Js.rem minutes 60 in
  let remainingSeconds := Js.rem seconds 60 in
  Js.toString hours +:+ "h " +:+ Js.toString remainingMinutes +:+ "m "
    +:+ Js.toString remainingSeconds +:+ "s".

(** The copy inside the page's script: same steps, with [+] for the
    template. *)
Definition formatDuration_embedded (ms : Z) : string :=
  let seconds := Js.floor_div ms 1000 in
  let minutes := Js.floor_div seconds 60 in
  let hours := Js.floor_div minutes 60 in
  let mins := Js.rem minutes 60 in
  let secs := Js.rem seconds 60 in
  ((((Js.toString hours +:+ "h ") +:+ Js.toString mins) +:+ "m ")
     +:+ Js.toString secs) +:+ "s".

(** ** The report: grouping and daily totals (lines 100-114) *)

(** One turn of the [for ... of usageData.sessions] loop.  [push] mutates
    the bucket held by the map, which is a [set] at the bucket's key. *)
Definition groupStep (sessionsByDate : JsMap.t (list UsageSession)) (session : UsageSession)
  : JsMap.t (list UsageSession) :=
  let m :=
    if negb (JsMap.has sessionsByDate (date session))
    then JsMap.set sessionsByDate (date session) []
    else sessionsByDate in
  match JsMap.get m (date session) with
  | Some bucket => JsMap.set m (date session) (bucket ++ [session])%list
  | None => m
  end.

Definition sessionsByDate (usageData : UsageData) : JsMap.t (list UsageSession) :=
  fold_left groupStep (sessions usageData) JsMap.empty.

(** [sessions.reduce((sum, session) => sum + (session.duration || 0), 0)] *)
Definition totalForDay (ss : list UsageSession) : Z :=
  fold_left (fun sum session => sum + Js.or_zero (duration session)) ss 0.

(** [sessionsByDate.forEach((sessions, date) => dailyTotals.set(...))] *)
Definition dailyTotalsOf (byDate : JsMap.t (list UsageSession)) : JsMap.t Z :=
  fold_left (fun dailyTotals '(date, ss) => JsMap.set dailyTotals date (totalForDay ss))
            (JsMap.entries byDate) JsMap.empty.

Definition dailyTotals (usageData : UsageData) : JsMap.t Z :=
  dailyTotalsOf (sessionsByDate usageData).

(** ** The report: table rows (lines 117-130) *)

(** [Array.prototype.sort()] without a comparator orders strings by their
    code units, ascending. *)
Definition sort (l : list string) : list string := merge_sort String.le l.

Definition sortedDates (usageData : UsageData) : list string :=
  rev (sort (JsMap.keys (dailyTotals usageData))).

(** [sessionsByDate.get(date)?.length || 0] *)
Definition sessionCount (byDate : JsMap.t (list UsageSession)) (date : string) : Z :=
  Js.or_zero (option_map (fun ss => Z.of_nat (length ss)) (JsMap.get byDate date)).

(** The template literal of one row. *)
Definition tableRow (date formattedDuration count : string) : string :=
  "
            <tr>
                <td>" +:+ date +:+ "</td>
                <td>" +:+ formattedDuration +:+ "</td>
                <td>" +:+ count +:+ "</td>
            </tr>
        ".

Definition rowFor (usageData : UsageData) (date : string) : string :=
  let totalForDay := Js.or_zero (JsMap.get (dailyTotals usageData) date) in
  let formattedDuration := formatDuration totalForDay in
  tableRow date formattedDuration
           (Js.toString (sessionCount (sessionsByDate usageData) date)).

Definition tableRows (usageData : UsageData) : string :=
  fold_left (fun rows date => rows +:+ rowFor usageData date)
            (sortedDates usageData) "".

(** ** The page (lines 132-244) *)

Definition dquote : string := String "034"%char EmptyString.
Definition backslash : string := String "092"%char EmptyString.

Module JSON.

Definition hexDigit (n : N) : string :=
  String (ascii_of_N (if (n <? 10)%N then 48 + n else 87 + n)%N) EmptyString.

(** [QuoteJSONString], one code unit at a time. *)
Definition quoteChar (c : ascii) : string :=
  match N_of_ascii c with
  | 8%N => backslash +:+ "b"
  | 9%N => backslash +:+ "t"
  | 10%N => backslash +:+ "n"
  | 12%N => backslash +:+ "f"
  | 13%N => backslash +:+ "r"
  | 34%N => backslash +:+ dquote
  | 92%N => backslash +:+ backslash
  | n =>
      if (n <? 32)%N
      then backslash +:+ "u00" +:+ hexDigit (n / 16) +:+ hexDigit (n mod 16)
      else String c EmptyString
  end.

Fixpoint quoteChars (s : string) : string :=
  match s with
  | EmptyString => EmptyString
  | String c s' => quoteChar c +:+ quoteChars s'
  end.

Definition quote (s : string) : string := dquote +:+ quoteChars s +:+ dquote.

Definition array (items : list string) : string :=
  "[" +:+ String.concat "," items +:+ "]".

(** [JSON.stringify] of an array of [[string, number]] pairs. *)
Definition stringify (entries : list (string * Z)) : string :=
  array (map (fun '(k, v) => array [quote k; Js.toString v]) entries).

End JSON.

Definition page_head : string :=
  String.concat dquote
    ["
    <!DOCTYPE html>
    <html lang=";
     "en";
     ">
    <head>
        <meta charset=";
     "UTF-8";
     ">
        <meta name=";
     "viewport";
     " content=";
     "width=device-width, initial-scale=1.0";
     ">
        <title>VS-Buddy Usage Statistics</title>
        <style>
            body {
                font-family: Arial, sans-serif;
                padding: 20px;
                color: var(--vscode-editor-foreground);
                background-color: var(--vscode-editor-background);
            }
            h1, h2 {
                color: var(--vscode-editor-foreground);
            }
            .stats-card {
                background-color: var(--vscode-editor-background);
                border: 1px solid var(--vscode-panel-border);
                border-radius: 5px;
                padding: 15px;
                margin-bottom: 20px;
            }
            table {
                width: 100%;
                border-collapse: collapse;
            }
            th, td {
                border: 1px solid var(--vscode-panel-border);
                padding: 8px;
                text-align: left;
            }
            th {
                background-color: var(--vscode-editor-lineHighlightBackground);
            }
            .chart-container {
                height: 200px;
                margin: 20px 0;
                position: relative;
            }
            .bar {
                background-color: var(--vscode-button-background);
                position: absolute;
                bottom: 0;
                width: 20px;
                transition: height 0.3s;
            }
        </style>
    </head>
    <body>
        <h1>VS Code Usage Statistics</h1>
        
        <div class=";
     "stats-card";
     ">
            <h2>Total Usage Time</h2>
            <p>"].

Definition page_body : string :=
  String.concat dquote
    ["</p>
        </div>
        
        <div class=";
     "stats-card";
     ">
            <h2>Daily Usage</h2>
            <div class=";
     "chart-container";
     " id=";
     "chart";
     ">
                <!-- Chart will be generated by JavaScript -->
            </div>
            <table>
                <thead>
                    <tr>
                        <th>Date</th>
                        <th>Total Time</th>
                        <th>Sessions</th>
                    </tr>
                </thead>
                <tbody>
                    "].

Definition page_script : string :=
  "
                </tbody>
            </table>
        </div>
        
        <script>
            (function() {
                const chartContainer = document.getElementById('chart');
                const dailyData = ".

Definition page_tail : string :=
  ";
                
                // Find maximum value for scaling
                const maxValue = Math.max(...dailyData.map(d => d[1]));
                
                // Create bars
                dailyData.forEach((dayData, index) => {
                    const date = dayData[0];
                    const value = dayData[1];
                    const percentage = (value / maxValue) * 100;
                    
                    const bar = document.createElement('div');
                    bar.className = 'bar';
                    bar.style.height = percentage + '%';
                    bar.style.left = (index * 30) + 'px';
                    bar.title = date + ': ' + formatDuration(value);
                    
                    chartContainer.appendChild(bar);
                });
                
                function formatDuration(ms) {
                    const seconds = Math.floor(ms / 1000);
                    const minutes = Math.floor(seconds / 60);
                    const hours = Math.floor(minutes / 60);
                    const mins = minutes % 60;
                    const secs = seconds % 60;
                    return hours + 'h ' + mins + 'm ' + secs + 's';
                }
            })();
        </script>
    </body>
    </html>
    ".

(** The template literal assigned to [panel.webview.html]. *)
Definition page (total rows dailyData : string) : string :=
  page_head +:+ total +:+ page_body +:+ rows +:+ page_script +:+ dailyData +:+ page_tail.

Definition webviewHtml (usageData : UsageData) : string :=
  page (formatDuration (totalTimeMs usageData))
       (tableRows usageData)
       (JSON.stringify (JsMap.entries (dailyTotals usageData))).

(** [showUsageStats]: reads the memento, writes nothing, and hands the
    page to the panel. *)
Definition showUsageStats (st : State) : State * string :=
  let usageData := loadUsageData (globalState st) in
  (st, webviewHtml usageData).

(** ** The script of the page (lines 209-241)

    It runs in the webview on the array literal that [JSON.stringify]
    wrote into it, the entries of [dailyTotals].  Its numbers are doubles. *)

Module Script.

Definition prec : Z := 53.
Definition emax : Z := 1024.

(** The double nearest to an integer. *)
Definition number (n : Z) : spec_float := binary_normalize prec emax n 0 false.

Definition div : spec_float -> spec_float -> spec_float := SFdiv prec emax.
Definition mul : spec_float -> spec_float -> spec_float := SFmul prec emax.

Definition NaN : spec_float := S754_nan.
Definition negInfinity : spec_float := S754_infinity true.

(** [Number.isFinite] *)
Definition isFinite (x : spec_float) : bool :=
  match x with
  | S754_zero _ | S754_finite _ _ _ => true
  | S754_infinity _ | S754_nan => false
  end.

(** [Math.max] of two numbers, then of a spread array: [NaN] is
    contagious, [+0] is above [-0], and no argument gives [-Infinity]. *)
Definition max2 (a b : spec_float) : spec_float :=
  match SFcompare a b with
  | None => NaN
  | Some Lt => b
  | Some Gt => a
  | Some Eq => match a with S754_zero true => b | _ => a end
  end.

Definition Math_max (l : list spec_float) : spec_float :=
  fold_left max2 l negInfinity.

(** One [div.bar]; [heightPercent] is the number that [style.height]
    receives in front of its [%]. *)
Record Bar := mkBar {
  className : string;
  heightPercent : spec_float;
  left : string;
  title : string
}.

Definition maxValue (dailyData : list (string * Z)) : spec_float :=
  Math_max (map (fun d => number (snd d)) dailyData).

Definition percentage (value : Z) (maxValue : spec_float) : spec_float :=
  mul (div (number value) maxValue) (number 100).

(** [dailyData.forEach((dayData, index) => ...)]: the bars appended to
    the chart container, in order. *)
Definition chart (dailyData : list (string * Z)) : list Bar :=
  let maxValue := maxValue dailyData in
  imap (fun index dayData =>
          let date := fst dayData in
          let value := snd dayData in
          {| className := "bar";
             heightPercent := percentage value maxValue;
             left := Js.toString (Z.of_nat index * 30) +:+ "px";
             title := (date +:+ ": ") +:+ formatDuration_embedded value |})
       dailyData.

End Script.

Definition chartBars (usageData : UsageData) : list Script.Bar :=
  Script.chart (JsMap.entries (dailyTotals usageData)).

(** ** Runs of the extension *)

(** The entry points that touch the state: [activate] starts a session,
    [deactivate] ends it, the command shows the report. *)
Inductive Call :=
| CallStartNewSession (now : Date)
| CallEndCurrentSession (now : Date)
| CallShowUsageStats.

Definition step (st : State) (c : Call) : State :=
  match c with
  | CallStartNewSession now => startNewSession now st
  | CallEndCurrentSession now => endCurrentSession now st
  | CallShowUsageStats => fst (showUsageStats st)
  end.

Definition run (calls : list Call) (st : State) : State := fold_left step calls st.

(** Saving sessions one at a time, first to last. *)
Definition saveAll (ss : list UsageSession) (m : Memento) : Memento :=
  fold_left (fun m session => saveSession session m) ss m.

(** The log held by a state. *)
Definition logOf (st : State) : UsageData := loadUsageData (globalState st).

(** ** Vocabulary of the properties *)

(** A session's duration, an absent one counted as 0. *)
Definition durationOrZero (s : UsageSession) : Z :=
  match duration s with
  | Some d => d
  | None => 0
  end.

Definition sumDurations (ss : list UsageSession) : Z :=
  fold_right (fun s acc => durationOrZero s + acc) 0 ss.

(** The sessions of one date, in the order of the log. *)
Definition sessionsOn (d : string) (ss : list UsageSession) : list UsageSession :=
  List.filter (fun s => String.eqb (date s) d) ss.

Definition isOpen (s : UsageSession) : Prop :=
  endTime s = None /\ duration s = None.

Definition isClosed (s : UsageSession) : Prop :=
  exists e d, endTime s = Some e /\ duration s = Some d /\ d = e - startTime s.

(** The session that [startNewSession] opens at an instant. *)
Definition openedAt (now : Date) : UsageSession :=
  {| startTime := getTime now;
     endTime := None;
     date := Js.split_head "T"%char (toISOString now);
     duration := None |}.

(** A session closed at an instant. *)
Definition closedAt (now : Date) (cur : UsageSession) : UsageSession :=
  {| startTime := startTime cur;
     endTime := Some (getTime now);
     date := date cur;
     duration := Some (getTime now - startTime cur) |}.

(** [a] sorts strictly after [b]. *)
Definition strictlyAfter (a b : string) : Prop := String.compare b a = Lt.


(** What the map holds after the loop has read the sessions [l]. *)
Definition groups (m : JsMap.t (list UsageSession)) (l : list UsageSession) : Prop :=
  NoDup (JsMap.keys m) /\
  forall d, JsMap.get m d = match sessionsOn d l with [] => None | ss => Some ss end.

(** An entry of [sessionsByDate] turned into its entry of [dailyTotals]. *)
Definition totalEntry (e : string * list UsageSession) : string * Z :=
  (fst e, sumDurations (snd e)).

(** The strings of a list, one after the other. *)
Definition concatAll (l : list string) : string := fold_right String.append "" l.

(** The row of a date: the date, the formatted sum of the durations of
    its sessions, and how many they are. *)
Definition reportRow (u : UsageData) (d : string) : string :=
  tableRow d
           (formatDuration (sumDurations (sessionsOn d (sessions u))))
           (Js.toString (Z.of_nat (length (sessionsOn d (sessions u))))).

(** The sessions the process holds: the one in the slot, and those of
    the log.  The open ones among them are those with no [endTime]. *)
Definition isOpenb (s : UsageSession) : bool :=
  match endTime s with
  | None => true
  | Some _ => false
  end.

Definition heldSessions (st : State) : list UsageSession :=
  (match currentSession st with Some s => [s] | None => [] end ++ sessions (logOf st))%list.

Definition openSessions (st : State) : list UsageSession :=
  List.filter isOpenb (heldSessions st).

(** A log with no open session in it. *)
Definition closedLog (st : State) : Prop :=
  Forall (fun s => isOpenb s = false) (sessions (logOf st)).






(** ** Sample data *)

Definition noMemento : Memento := {| stored := ∅; updates := [] |}.

Definition jan1 : Date := {| getTime := 1704067200000; toISOString := "2024-01-01T00:00:00.000Z" |}.
Definition jan1_5s : Date := {| getTime := 1704067205000; toISOString := "2024-01-01T00:00:05.000Z" |}.
Definition jan2 : Date := {| getTime := 1704153600000; toISOString := "2024-01-02T00:00:00.000Z" |}.

Definition idleSession : UsageSession :=
  {| startTime := 1704067200000; endTime := Some 1704067200000;
     date := "2024-01-01"; duration := Some 0 |}.

Definition idleLog : UsageData := {| sessions := [idleSession]; totalTimeMs := 0 |}.

(** ** Activation and deactivation (lines 20-41) *)

(** [vscode.ExtensionContext]: its memento, and the commands whose
    disposables were pushed on [subscriptions]. *)
Record ExtensionContext := mkContext {
  contextGlobalState : Memento;
  subscriptions : list string
}.

(** The module-level variables when the module is loaded; [globalState]
    is unassigned until [activate] runs, and reads as an empty memento. *)
Definition initialState : State :=
  {| currentSession := None; globalState := {| stored := ∅; updates := [] |} |}.

Definition activate (now : Date) (context : ExtensionContext) (st : State)
  : State * ExtensionContext :=
  let st1 := {| currentSession := currentSession st;
                globalState := contextGlobalState context |} in
  let st2 := startNewSession now st1 in
  (st2,
   {| contextGlobalState := contextGlobalState context;
      subscriptions :=
        (subscriptions context ++ ["vs-buddy.showUsage"; "vs-buddy.helloWorld"])%list |}).

Definition deactivate (now : Date) (st : State) : State := endCurrentSession now st.

(** One life of the extension host over a persisted memento: the module
    is loaded, [activate] runs at [start], the usage command runs [shows]
    times, [deactivate] runs at [stop]; the memento is what persists. *)
Definition lifetime (persisted : Memento) (life : Date * nat * Date) : Memento :=
  let '(start, shows, stop) := life in
  let context := {| contextGlobalState := persisted; subscriptions := [] |} in
  let st := fst (activate start context initialState) in
  let st := Nat.iter shows (fun st => fst (showUsageStats st)) st in
  globalState (deactivate stop st).

Definition lifetimes (lives : list (Date * nat * Date)) (persisted : Memento) : Memento :=
  fold_left lifetime lives persisted.

(** ** More vocabulary of the properties *)

(** The session that a life from [start] to [stop] leaves in the log. *)
Definition sessionOfLife (life : Date * nat * Date) : UsageSession :=
  let '(start, _, stop) := life in closedAt stop (openedAt start).

(** The milliseconds between the two instants of a life. *)
Definition lengthOfLife (life : Date * nat * Date) : Z :=
  let '(start, _, stop) := life in getTime stop - getTime start.

(** A log whose total is the sum of the durations of its sessions. *)
Definition consistent (u : UsageData) : Prop :=
  totalTimeMs u = sumDurations (sessions u).

(** The instants a run reads from the clock, in order. *)
Definition clockOf (c : Call) : list Z :=
  match c with
  | CallStartNewSession now => [getTime now]
  | CallEndCurrentSession now => [getTime now]
  | CallShowUsageStats => []
  end.

Definition clockReadings (calls : list Call) : list Z := concat (map clockOf calls).

(** A session with a duration that is not negative. *)
Definition hasDuration (s : UsageSession) : Prop :=
  exists d, duration s = Some d /\ 0 <= d.



(** * Properties *)

(** ** JavaScript primitives *)

Lemma or_zero_default (d : option Z) :
  Js.or_zero d = match d with Some v => v | None => 0 end.
Proof.
  destruct d as [v|]; simpl; [|reflexivity].
  destruct (Z.eqb_spec v 0); congruence.
Qed.

Lemma or_zero_duration (s : UsageSession) : Js.or_zero (duration s) = durationOrZero s.
Proof. unfold durationOrZero. apply or_zero_default. Qed.

Lemma append_cons (x : ascii) (a b : string) : String x a +:+ b = String x (a +:+ b).
Proof. reflexivity. Qed.

Lemma append_assoc (a b c : string) : (a +:+ b) +:+ c = a +:+ (b +:+ c).
Proof.
  induction a as [|x a IH]; [reflexivity|].
  now rewrite !append_cons, IH.
Qed.

Lemma append_nil_r (a : string) : a +:+ "" = a.
Proof.
  induction a as [|x a IH]; [reflexivity|].
  now rewrite append_cons, IH.
Qed.

(** ** The aggregator *)

Lemma load_update (m : Memento) (u : UsageData) :
  loadUsageData (Js.update m usageDataKey u) = u.
Proof.
  unfold loadUsageData, Js.get, Js.update; simpl.
  now rewrite lookup_insert_eq.
Qed.

Lemma load_saveSession (s : UsageSession) (m : Memento) :
  loadUsageData (saveSession s m) = mergeSession (loadUsageData m) s.
Proof. unfold saveSession. apply load_update. Qed.

Lemma mergeSession_total (u : UsageData) (s : UsageSession) :
  totalTimeMs (mergeSession u s) = totalTimeMs u + durationOrZero s.
Proof.
  unfold mergeSession, durationOrZero; simpl.
  destruct (duration s) as [d|]; simpl; [|lia].
  destruct (Z.eqb_spec d 0); simpl; lia.
Qed.

Lemma sumDurations_app (l1 l2 : list UsageSession) :
  sumDurations (l1 ++ l2) = sumDurations l1 + sumDurations l2.
Proof.
  unfold sumDurations. induction l1 as [|s l1 IH]; simpl; [reflexivity|].
  rewrite IH. lia.
Qed.

Lemma load_saveAll (ss : list UsageSession) (m : Memento) :
  sessions (loadUsageData (saveAll ss m)) = (sessions (loadUsageData m) ++ ss)%list /\
  totalTimeMs (loadUsageData (saveAll ss m)) = totalTimeMs (loadUsageData m) + sumDurations ss.
Proof.
  revert m. induction ss as [|s ss IH]; intros m.
  - simpl. rewrite app_nil_r. split; [reflexivity | lia].
  - change (saveAll (s :: ss) m) with (saveAll ss (saveSession s m)).
    destruct (IH (saveSession s m)) as [Hs Ht].
    rewrite Hs, Ht, load_saveSession, mergeSession_total.
    split.
    + simpl. now rewrite <- app_assoc.
    + change (sumDurations (s :: ss)) with (durationOrZero s + sumDurations ss). lia.
Qed.

(** The running total does not depend on the order of the merges. *)
Lemma sumDurations_Permutation (l1 l2 : list UsageSession) :
  Permutation l1 l2 -> sumDurations l1 = sumDurations l2.
Proof.
  induction 1 as [|x l l' _ IH|x y l|l l' l'' _ IH1 _ IH2]; simpl; lia.
Qed.

(** C1. Saving any sequence of sessions one at a time, starting from the
    empty log, leaves a log whose sessions are that sequence and whose
    [totalTimeMs] is the sum of their durations, an absent duration
    counted as 0; so after every merge [totalTimeMs] is the sum of the
    durations of the sessions of the log, and the order of the merges
    does not change it. *)
Theorem saveSession_total_is_sum (ss : list UsageSession) (m : Memento) :
  loadUsageData m = emptyLog ->
  sessions (loadUsageData (saveAll ss m)) = ss /\
  totalTimeMs (loadUsageData (saveAll ss m)) = sumDurations ss /\
  totalTimeMs (loadUsageData (saveAll ss m))
    = sumDurations (sessions (loadUsageData (saveAll ss m))) /\
  (forall ss' : list UsageSession,
     ss ≡ₚ ss' ->
     totalTimeMs (loadUsageData (saveAll ss' m))
     = totalTimeMs (loadUsageData (saveAll ss m))).
Proof.
  intros Hempty.
  assert (Hall : forall l, sessions (loadUsageData (saveAll l m)) = l /\
                           totalTimeMs (loadUsageData (saveAll l m)) = sumDurations l).
  { intros l. destruct (load_saveAll l m) as [Hs Ht].
    rewrite Hempty in Hs, Ht. simpl in Hs, Ht. split; [exact Hs | lia]. }
  destruct (Hall ss) as [Hs Ht].
  rewrite Hs, Ht. repeat split.
  intros ss' Hperm. rewrite (proj2 (Hall ss')).
  symmetry. now apply sumDurations_Permutation.
Qed.

Lemma saveSession_total_is_sum_witness :
  loadUsageData noMemento = emptyLog /\
  totalTimeMs (loadUsageData
     (saveAll [closedAt jan1_5s (openedAt jan1); openedAt jan2; idleSession] noMemento))
  = 5000.
Proof.
  split; [reflexivity|].
  destruct (saveSession_total_is_sum
              [closedAt jan1_5s (openedAt jan1); openedAt jan2; idleSession]
              noMemento eq_refl) as (_ & Ht & _).
  rewrite Ht. reflexivity.
Defined.

(** ** [formatDuration] *)




(** C9. The copy of [formatDuration] inside the page computes the same
    string as the extension's own, on every number of milliseconds (the
    non-negative ones among them). *)
Theorem formatDuration_embedded_eq (ms : Z) :
  formatDuration_embedded ms = formatDuration ms.
Proof.
  unfold formatDuration_embedded, formatDuration. cbv zeta.
  now rewrite !append_assoc.
Qed.

(** ** The session tracker *)

Lemma closedAt_isClosed (now : Date) (cur : UsageSession) : isClosed (closedAt now cur).
Proof. exists (getTime now), (getTime now - startTime cur). simpl. auto. Qed.

Lemma openedAt_isOpen (now : Date) : isOpen (openedAt now).
Proof. split; reflexivity. Qed.

Lemma endCurrentSession_some (now : Date) (st : State) (cur : UsageSession) :
  currentSession st = Some cur ->
  endCurrentSession now st
  = {| currentSession := None;
       globalState := saveSession (closedAt now cur) (globalState st) |}.
Proof. intros H. unfold endCurrentSession. now rewrite H. Qed.

Lemma endCurrentSession_none (now : Date) (st : State) :
  currentSession st = None -> endCurrentSession now st = st.
Proof. intros H. unfold endCurrentSession. now rewrite H. Qed.

Lemma endCurrentSession_current (now : Date) (st : State) :
  currentSession (endCurrentSession now st) = None.
Proof.
  unfold endCurrentSession.
  destruct (currentSession st) eqn:H; [reflexivity | exact H].
Qed.

Lemma logOf_endCurrentSession (now : Date) (st : State) (cur : UsageSession) :
  currentSession st = Some cur ->
  logOf (endCurrentSession now st) = mergeSession (logOf st) (closedAt now cur).
Proof.
  intros H. rewrite (endCurrentSession_some now st cur H).
  unfold logOf. simpl. apply load_saveSession.
Qed.

(** C4. Ending an open session stamps it with the instant of the call:
    the session handed to the log has both [endTime] and [duration],
    [duration] is [endTime - startTime], and it is not negative when the
    instant is not before [startTime]. *)
Theorem endCurrentSession_closes (now : Date) (st : State) (cur : UsageSession) :
  currentSession st = Some cur ->
  endTime cur = None ->
  exists closed : UsageSession,
    sessions (logOf (endCurrentSession now st)) = (sessions (logOf st) ++ [closed])%list /\
    startTime closed = startTime cur /\
    date closed = date cur /\
    endTime closed = Some (getTime now) /\
    duration closed = Some (getTime now - startTime cur) /\
    isClosed closed /\
    (startTime cur <= getTime now -> 0 <= getTime now - startTime cur).
Proof.
  intros Hcur _. exists (closedAt now cur).
  rewrite (logOf_endCurrentSession now st cur Hcur).
  repeat split; try reflexivity.
  - apply closedAt_isClosed.
  - lia.
Qed.

Lemma endCurrentSession_closes_witness :
  exists closed : UsageSession,
    sessions (logOf (endCurrentSession jan1_5s (startNewSession jan1 (mkState None noMemento))))
    = [closed] /\
    duration closed = Some 5000.
Proof.
  destruct (endCurrentSession_closes jan1_5s
              (startNewSession jan1 (mkState None noMemento)) (openedAt jan1)
              eq_refl eq_refl) as (closed & Hs & _ & _ & _ & Hd & _).
  exists closed. split; [exact Hs | exact Hd].
Defined.

Lemma step_closedLog (st : State) (c : Call) : closedLog st -> closedLog (step st c).
Proof.
  unfold closedLog. intros H. destruct c as [now|now|]; simpl; try exact H.
  destruct (currentSession st) as [cur|] eqn:Hcur.
  - rewrite (logOf_endCurrentSession now st cur Hcur). simpl.
    apply Forall_app. split; [exact H | repeat constructor].
  - now rewrite endCurrentSession_none.
Qed.

Lemma run_closedLog (calls : list Call) (st : State) :
  closedLog st -> closedLog (run calls st).
Proof.
  revert st. induction calls as [|c calls IH]; intros st H; simpl; [exact H|].
  apply IH, step_closedLog, H.
Qed.

Lemma filter_none {A : Type} (f : A -> bool) (l : list A) :
  Forall (fun x => f x = false) l -> List.filter f l = [].
Proof. induction 1 as [|x l Hx _ IH]; simpl; [reflexivity | now rewrite Hx]. Qed.

Lemma openSessions_closedLog (st : State) :
  closedLog st -> (length (openSessions st) <= 1)%nat.
Proof.
  intros H. unfold openSessions, heldSessions.
  rewrite List.filter_app, (filter_none _ _ H), app_nil_r.
  destruct (currentSession st) as [s|]; simpl; [destruct (isOpenb s)|]; simpl; lia.
Qed.

(** C5. There is one slot for the open session, and [startNewSession]
    overwrites it without looking at it: the log is not touched, the slot
    holds the new open session, every later run goes on as if the
    overwritten session had never been opened, and the next end of
    session appends the new session only.  So, from a log of ended
    sessions, the process never holds more than one open session. *)
Theorem startNewSession_discards (now : Date) (old : UsageSession) (m : Memento) :
  currentSession (startNewSession now (mkState (Some old) m)) = Some (openedAt now) /\
  isOpen (openedAt now) /\
  globalState (startNewSession now (mkState (Some old) m)) = m /\
  (forall calls : list Call,
     run calls (startNewSession now (mkState (Some old) m))
     = run calls (startNewSession now (mkState None m))) /\
  (forall later : Date,
     sessions (logOf (endCurrentSession later (startNewSession now (mkState (Some old) m))))
     = (sessions (loadUsageData m) ++ [closedAt later (openedAt now)])%list) /\
  (forall (calls : list Call) (st : State),
     closedLog st -> (length (openSessions (run calls st)) <= 1)%nat).
Proof.
  split; [reflexivity|]. split; [apply openedAt_isOpen|].
  split; [reflexivity|]. split; [reflexivity|]. split.
  - intros later.
    rewrite (logOf_endCurrentSession later
               (startNewSession now (mkState (Some old) m)) (openedAt now) eq_refl).
    reflexivity.
  - intros calls st H. apply openSessions_closedLog, run_closedLog, H.
Qed.

Lemma startNewSession_discards_witness :
  closedLog (mkState None noMemento) /\
  (length (openSessions
     (run [CallStartNewSession jan1; CallStartNewSession jan1_5s;
           CallEndCurrentSession jan2; CallStartNewSession jan2]
          (mkState None noMemento))) <= 1)%nat.
Proof.
  assert (H : closedLog (mkState None noMemento)) by constructor.
  split; [exact H|].
  exact (proj2 (proj2 (proj2 (proj2 (proj2
           (startNewSession_discards jan1 idleSession noMemento)))))
           [CallStartNewSession jan1; CallStartNewSession jan1_5s;
            CallEndCurrentSession jan2; CallStartNewSession jan2]
           (mkState None noMemento) H).
Defined.

(** ** The absent log *)

(** C8. When the memento has nothing under the usage-data key, saving a
    session and showing the report both go on with the empty log: the
    session is merged into the empty log and stored, the page is the page
    of the empty log, and showing changes nothing. *)
Theorem absent_log_is_empty (st : State) (session : UsageSession) :
  Js.get (globalState st) usageDataKey = None ->
  loadUsageData (globalState st) = emptyLog /\
  saveSession session (globalState st)
  = Js.update (globalState st) usageDataKey (mergeSession emptyLog session) /\
  loadUsageData (saveSession session (globalState st))
  = {| sessions := [session]; totalTimeMs := durationOrZero session |} /\
  showUsageStats st = (st, webviewHtml emptyLog).
Proof.
  intros Habsent.
  assert (Hload : loadUsageData (globalState st) = emptyLog)
    by (unfold loadUsageData; now rewrite Habsent).
  repeat split.
  - exact Hload.
  - unfold saveSession. now rewrite Hload.
  - rewrite load_saveSession, Hload.
    pose proof (mergeSession_total emptyLog session) as Ht.
    destruct (mergeSession emptyLog session) as [ss t] eqn:E.
    unfold mergeSession in E. injection E as <- _.
    simpl in Ht. rewrite Ht. reflexivity.
  - unfold showUsageStats. now rewrite Hload.
Qed.

Lemma absent_log_is_empty_witness :
  loadUsageData (saveSession idleSession noMemento)
  = {| sessions := [idleSession]; totalTimeMs := 0 |}.
Proof.
  destruct (absent_log_is_empty (mkState None noMemento) idleSession eq_refl)
    as (_ & _ & H & _).
  exact H.
Defined.

(** ** Ending with no session open *)

(** C10. With no session open [endCurrentSession] returns the state as it
    is: nothing is appended, the log and its total stay, and the memento
    receives no [update].  Ending twice in a row is ending once, so the
    pair appends one session and makes one [update]. *)
Theorem endCurrentSession_idle (first second : Date) (st : State) :
  (currentSession st = None -> endCurrentSession first st = st) /\
  endCurrentSession second (endCurrentSession first st) = endCurrentSession first st /\
  (forall cur : UsageSession,
     currentSession st = Some cur ->
     sessions (logOf (endCurrentSession second (endCurrentSession first st)))
     = (sessions (logOf st) ++ [closedAt first cur])%list /\
     updates (globalState (endCurrentSession second (endCurrentSession first st)))
     = (usageDataKey, mergeSession (logOf st) (closedAt first cur))
         :: updates (globalState st)).
Proof.
  assert (Htwice : endCurrentSession second (endCurrentSession first st)
                   = endCurrentSession first st)
    by (apply endCurrentSession_none, endCurrentSession_current).
  split; [apply endCurrentSession_none|].
  split; [exact Htwice|].
  intros cur Hcur. rewrite Htwice. split.
  - now rewrite (logOf_endCurrentSession first st cur Hcur).
  - now rewrite (endCurrentSession_some first st cur Hcur).
Qed.

Lemma endCurrentSession_idle_witness :
  endCurrentSession jan2 (mkState None noMemento) = mkState None noMemento /\
  length (sessions (logOf (endCurrentSession jan2
            (endCurrentSession jan1_5s (startNewSession jan1 (mkState None noMemento))))))
  = 1%nat.
Proof.
  split.
  - exact (proj1 (endCurrentSession_idle jan2 jan2 (mkState None noMemento)) eq_refl).
  - destruct (proj2 (proj2 (endCurrentSession_idle jan1_5s jan2
                 (startNewSession jan1 (mkState None noMemento))))
                (openedAt jan1) eq_refl) as [Hs _].
    rewrite Hs. reflexivity.
Defined.

(** ** The insertion-ordered map *)

Section JsMapFacts.
Context {V : Type}.
Implicit Types (m : JsMap.t V) (k : string) (v : V).

Lemma get_set m k v k' :
  JsMap.get (JsMap.set m k v) k' = if String.eqb k k' then Some v else JsMap.get m k'.
Proof.
  induction m as [|[k0 v0] m IH]; simpl.
  - reflexivity.
  - destruct (String.eqb_spec k0 k) as [->|Hne]; simpl.
    + destruct (String.eqb_spec k k'); reflexivity.
    + rewrite IH.
      destruct (String.eqb_spec k0 k') as [->|]; [|reflexivity].
      destruct (String.eqb_spec k k'); congruence.
Qed.

Lemma get_None_keys m k : JsMap.get m k = None <-> k ∉ JsMap.keys m.
Proof.
  induction m as [|[k0 v0] m IH]; simpl.
  - split; [intros _; apply not_elem_of_nil | reflexivity].
  - rewrite not_elem_of_cons.
    destruct (String.eqb_spec k0 k) as [->|Hne].
    + split; [discriminate | intros [? _]; congruence].
    + rewrite IH. split; [intros ?; split; congruence | intros [_ ?]; assumption].
Qed.

Lemma set_absent m k v : JsMap.get m k = None -> JsMap.set m k v = (m ++ [(k, v)])%list.
Proof.
  induction m as [|[k0 v0] m IH]; simpl; [reflexivity|].
  destruct (String.eqb_spec k0 k); [discriminate|].
  intros H. now rewrite IH.
Qed.

Lemma keys_set_present m k v :
  JsMap.get m k <> None -> JsMap.keys (JsMap.set m k v) = JsMap.keys m.
Proof.
  induction m as [|[k0 v0] m IH]; simpl; [congruence|].
  destruct (String.eqb_spec k0 k) as [->|]; simpl; [reflexivity|].
  intros H. now rewrite IH.
Qed.

Lemma keys_app m1 m2 : JsMap.keys (m1 ++ m2)%list = (JsMap.keys m1 ++ JsMap.keys m2)%list.
Proof. apply map_app. Qed.

Lemma NoDup_keys_set m k v : NoDup (JsMap.keys m) -> NoDup (JsMap.keys (JsMap.set m k v)).
Proof.
  intros Hnd. destruct (JsMap.get m k) eqn:Hget.
  - rewrite keys_set_present; [assumption | congruence].
  - rewrite set_absent, keys_app by assumption. simpl.
    apply NoDup_app. split; [assumption|]. split.
    + intros x Hx Hin. apply list_elem_of_singleton in Hin as ->.
      now apply get_None_keys in Hget.
    + apply NoDup_singleton.
Qed.

Lemma elem_of_entries m k v :
  NoDup (JsMap.keys m) -> (k, v) ∈ JsMap.entries m <-> JsMap.get m k = Some v.
Proof.
  unfold JsMap.entries.
  induction m as [|[k0 v0] m IH]; simpl; intros Hnd.
  - split; [intros H; now apply elem_of_nil in H | discriminate].
  - apply NoDup_cons in Hnd as [Hnotin Hnd].
    rewrite elem_of_cons, (IH Hnd).
    destruct (String.eqb_spec k0 k) as [->|Hne].
    + split.
      * intros [H|H]; [congruence|].
        apply get_None_keys in Hnotin. congruence.
      * intros [= ->]. now left.
    + split; [intros [H|H]; [congruence | assumption] | now right].
Qed.
End JsMapFacts.

(** ** Grouping by date *)

Lemma sessionsOn_app (d : string) (l1 l2 : list UsageSession) :
  sessionsOn d (l1 ++ l2) = (sessionsOn d l1 ++ sessionsOn d l2)%list.
Proof. apply List.filter_app. Qed.

Lemma elem_of_sessionsOn (d : string) (l : list UsageSession) (s : UsageSession) :
  s ∈ sessionsOn d l <-> s ∈ l /\ date s = d.
Proof.
  unfold sessionsOn. rewrite !list_elem_of_In, List.filter_In.
  now rewrite String.eqb_eq.
Qed.

Lemma groups_nil : groups JsMap.empty [].
Proof. split; [apply NoDup_nil_2 | reflexivity]. Qed.

Lemma groupStep_groups (m : JsMap.t (list UsageSession)) (l : list UsageSession)
      (s : UsageSession) :
  groups m l -> groups (groupStep m s) (l ++ [s]).
Proof.
  intros [Hnd Hget]. unfold groupStep, JsMap.has.
  assert (Hsnoc : forall d, sessionsOn d (l ++ [s])
            = (sessionsOn d l ++ if String.eqb (date s) d then [s] else [])%list).
  { intros d. rewrite sessionsOn_app. reflexivity. }
  destruct (JsMap.get m (date s)) as [bucket|] eqn:Hb; simpl.
  - rewrite Hb. split.
    + now apply NoDup_keys_set.
    + intros d. rewrite get_set, Hsnoc.
      destruct (String.eqb_spec (date s) d) as [<-|Hne].
      * rewrite Hget in Hb.
        destruct (sessionsOn (date s) l) as [|x xs]; [discriminate|].
        injection Hb as <-. reflexivity.
      * rewrite app_nil_r. apply Hget.
  - rewrite get_set, String.eqb_refl. split.
    + now apply NoDup_keys_set, NoDup_keys_set.
    + intros d. rewrite !get_set, Hsnoc.
      destruct (String.eqb_spec (date s) d) as [<-|Hne].
      * rewrite Hget in Hb.
        destruct (sessionsOn (date s) l) as [|x xs]; [reflexivity | discriminate].
      * rewrite app_nil_r. apply Hget.
Qed.

Lemma fold_groupStep_groups (l l0 : list UsageSession) (m : JsMap.t (list UsageSession)) :
  groups m l0 -> groups (fold_left groupStep l m) (l0 ++ l).
Proof.
  revert l0 m. induction l as [|s l IH]; intros l0 m H; simpl.
  - now rewrite app_nil_r.
  - replace (l0 ++ s :: l)%list with ((l0 ++ [s]) ++ l)%list
      by (now rewrite <- app_assoc).
    apply IH, groupStep_groups, H.
Qed.

Lemma sessionsByDate_groups (u : UsageData) : groups (sessionsByDate u) (sessions u).
Proof. apply (fold_groupStep_groups (sessions u) [] JsMap.empty groups_nil). Qed.

(** ** Daily totals *)

Lemma totalForDay_sum (ss : list UsageSession) : totalForDay ss = sumDurations ss.
Proof.
  unfold totalForDay.
  assert (H : forall acc, fold_left (fun sum session => sum + Js.or_zero (duration session)) ss acc
                          = acc + sumDurations ss).
  { induction ss as [|s ss IH]; intros acc; simpl; [lia|].
    rewrite IH, or_zero_duration. lia. }
  now rewrite H.
Qed.

Lemma dailyTotalsOf_map (m : JsMap.t (list UsageSession)) :
  NoDup (JsMap.keys m) -> dailyTotalsOf m = map totalEntry m.
Proof.
  unfold dailyTotalsOf, JsMap.entries, JsMap.empty.
  assert (H : forall acc : JsMap.t Z,
             NoDup (JsMap.keys acc ++ JsMap.keys m) ->
             fold_left (fun dailyTotals '(date, ss) => JsMap.set dailyTotals date (totalForDay ss))
                       m acc
             = (acc ++ map totalEntry m)%list).
  { induction m as [|[k ss] m IH]; intros acc Hnd; simpl.
    - now rewrite app_nil_r.
    - rewrite set_absent.
      + rewrite IH.
        * rewrite <- app_assoc, totalForDay_sum. reflexivity.
        * rewrite keys_app. simpl. now rewrite <- app_assoc.
      + apply get_None_keys. simpl in Hnd.
        apply NoDup_app in Hnd as (_ & Hdisj & _).
        intros Hin. apply (Hdisj k Hin). now left. }
  intros Hnd. apply (H []). exact Hnd.
Qed.

Lemma keys_map_totalEntry (m : JsMap.t (list UsageSession)) :
  JsMap.keys (map totalEntry m) = JsMap.keys m.
Proof. unfold JsMap.keys. rewrite map_map. reflexivity. Qed.

Lemma get_map_totalEntry (m : JsMap.t (list UsageSession)) (d : string) :
  JsMap.get (map totalEntry m) d = option_map sumDurations (JsMap.get m d).
Proof.
  induction m as [|[k ss] m IH]; simpl; [reflexivity|].
  destruct (String.eqb k d); [reflexivity | apply IH].
Qed.

Lemma dailyTotals_map (u : UsageData) : dailyTotals u = map totalEntry (sessionsByDate u).
Proof. apply dailyTotalsOf_map, sessionsByDate_groups. Qed.

Lemma keys_dailyTotals (u : UsageData) :
  JsMap.keys (dailyTotals u) = JsMap.keys (sessionsByDate u).
Proof. rewrite dailyTotals_map. apply keys_map_totalEntry. Qed.

(** C3. Grouping the sessions of a log by date is a partition by each
    session's own date: the buckets have distinct dates, the bucket of a
    date is the non-empty list of the log's sessions of that date in the
    order of the log, every session is in the bucket of its date and in no
    other, and the daily total of a date is the sum of the durations of
    its bucket, an absent duration counted as 0. *)
Theorem sessionsByDate_partition (u : UsageData) :
  NoDup (JsMap.keys (sessionsByDate u)) /\
  (forall d ss,
     (d, ss) ∈ JsMap.entries (sessionsByDate u)
     <-> ss = sessionsOn d (sessions u) /\ ss <> []) /\
  (forall s, s ∈ sessions u ->
     (exists ss, (date s, ss) ∈ JsMap.entries (sessionsByDate u) /\ s ∈ ss) /\
     (forall d ss, (d, ss) ∈ JsMap.entries (sessionsByDate u) -> s ∈ ss -> d = date s)) /\
  JsMap.keys (dailyTotals u) = JsMap.keys (sessionsByDate u) /\
  (forall d,
     JsMap.get (dailyTotals u) d
     = option_map sumDurations (JsMap.get (sessionsByDate u) d)) /\
  (forall d ss,
     (d, ss) ∈ JsMap.entries (sessionsByDate u) ->
     JsMap.get (dailyTotals u) d = Some (sumDurations (sessionsOn d (sessions u)))).
Proof.
  destruct (sessionsByDate_groups u) as [Hnd Hget].
  assert (Hentry : forall d ss,
             (d, ss) ∈ JsMap.entries (sessionsByDate u)
             <-> ss = sessionsOn d (sessions u) /\ ss <> []).
  { intros d ss. rewrite (elem_of_entries _ _ _ Hnd), Hget.
    destruct (sessionsOn d (sessions u)) as [|x xs].
    - split; [discriminate | intros [-> H]; congruence].
    - split; [intros [= <-]; split; [reflexivity | discriminate] | intros [-> _]; reflexivity]. }
  split; [exact Hnd|]. split; [exact Hentry|]. split; [|split; [|split]].
  - intros s Hs. split.
    + exists (sessionsOn (date s) (sessions u)).
      assert (Hin : s ∈ sessionsOn (date s) (sessions u))
        by (apply elem_of_sessionsOn; auto).
      split; [|exact Hin].
      apply Hentry. split; [reflexivity|].
      intros E. rewrite E in Hin. now apply elem_of_nil in Hin.
    + intros d ss Hd Hin. apply Hentry in Hd as [-> _].
      apply elem_of_sessionsOn in Hin as [_ H]. now symmetry.
  - apply keys_dailyTotals.
  - intros d. rewrite dailyTotals_map. apply get_map_totalEntry.
  - intros d ss Hd. rewrite dailyTotals_map, get_map_totalEntry.
    pose proof (proj1 (Hentry d ss) Hd) as [-> _].
    apply (elem_of_entries _ _ _ Hnd) in Hd. now rewrite Hd.
Qed.

(** ** The rows of the report *)

Lemma le_neq_lt (a b : string) : String.le a b -> a <> b -> String.compare a b = Lt.
Proof.
  unfold String.le, String.leb. intros Hle Hne.
  destruct (String.compare a b) eqn:E.
  - now apply String.compare_eq_iff in E.
  - reflexivity.
  - contradiction.
Qed.

Lemma StronglySorted_strict (l : list string) :
  StronglySorted String.le l -> NoDup l ->
  StronglySorted (fun a b => strictlyAfter b a) l.
Proof.
  induction 1 as [|a l Hs IH Hall]; intros Hnd; constructor.
  - apply IH. now apply NoDup_cons in Hnd as [_ ?].
  - apply NoDup_cons in Hnd as [Hnotin _].
    apply List.Forall_forall. intros b Hb.
    apply le_neq_lt.
    + eapply List.Forall_forall in Hall; eassumption.
    + intros ->. apply Hnotin. now apply list_elem_of_In.
Qed.

Lemma StronglySorted_rev {A : Type} (R : A -> A -> Prop) (l : list A) :
  StronglySorted R l -> StronglySorted (fun a b => R b a) (rev l).
Proof.
  induction 1 as [|a l Hs IH Hall]; simpl; [constructor|].
  apply StronglySorted_app_2.
  - intros x y Hx Hy. apply list_elem_of_singleton in Hy as ->.
    apply list_elem_of_In, List.in_rev in Hx.
    eapply List.Forall_forall in Hall; eassumption.
  - exact IH.
  - repeat constructor.
Qed.

Lemma sort_sorted (l : list string) : StronglySorted String.le (sort l).
Proof. apply StronglySorted_merge_sort; apply _. Qed.

Lemma sort_Permutation (l : list string) : sort l ≡ₚ l.
Proof. apply merge_sort_Permutation. Qed.

Lemma sortedDates_Permutation (u : UsageData) :
  sortedDates u ≡ₚ JsMap.keys (sessionsByDate u).
Proof.
  unfold sortedDates.
  rewrite <- Permutation_rev, sort_Permutation, keys_dailyTotals.
  reflexivity.
Qed.

Lemma sortedDates_sorted (u : UsageData) : StronglySorted strictlyAfter (sortedDates u).
Proof.
  unfold sortedDates.
  apply (StronglySorted_rev (fun a b => strictlyAfter b a)).
  apply StronglySorted_strict; [apply sort_sorted|].
  rewrite sort_Permutation, keys_dailyTotals.
  apply sessionsByDate_groups.
Qed.

Lemma elem_of_keys_sessionsByDate (u : UsageData) (d : string) :
  d ∈ JsMap.keys (sessionsByDate u) <-> exists s, s ∈ sessions u /\ date s = d.
Proof.
  destruct (sessionsByDate_groups u) as [_ Hget].
  destruct (JsMap.get (sessionsByDate u) d) as [ss|] eqn:E.
  - split.
    + intros _. rewrite Hget in E.
      destruct (sessionsOn d (sessions u)) as [|s l] eqn:F; [discriminate|].
      exists s. apply elem_of_sessionsOn. rewrite F. now left.
    + intros _. destruct (decide (d ∈ JsMap.keys (sessionsByDate u))) as [|Hn]; [assumption|].
      apply get_None_keys in Hn. congruence.
  - split.
    + intros Hin. now apply get_None_keys in E.
    + intros (s & Hs & Hd). rewrite Hget in E.
      assert (Hin : s ∈ sessionsOn d (sessions u)) by (now apply elem_of_sessionsOn).
      destruct (sessionsOn d (sessions u)); [|discriminate].
      now apply elem_of_nil in Hin.
Qed.

Lemma rowFor_reportRow (u : UsageData) (d : string) : rowFor u d = reportRow u d.
Proof.
  destruct (sessionsByDate_groups u) as [_ Hget].
  unfold rowFor, reportRow, sessionCount. cbv zeta.
  rewrite dailyTotals_map, get_map_totalEntry, Hget, !or_zero_default.
  destruct (sessionsOn d (sessions u)); reflexivity.
Qed.

Lemma fold_left_append {A : Type} (f : A -> string) (l : list A) (acc : string) :
  fold_left (fun rows x => rows +:+ f x) l acc = acc +:+ concatAll (map f l).
Proof.
  revert acc. induction l as [|x l IH]; intros acc; simpl.
  - now rewrite append_nil_r.
  - now rewrite IH, append_assoc.
Qed.

Lemma tableRows_reportRow (u : UsageData) :
  tableRows u = concatAll (map (reportRow u) (sortedDates u)).
Proof.
  unfold tableRows. rewrite fold_left_append.
  change ("" +:+ ?x) with x.
  f_equal. apply map_ext. intros d. apply rowFor_reportRow.
Qed.


(** ** Dates as text *)







(** ** The bars of the chart *)

Lemma number_100 : Script.number 100 = S754_finite false 7036874417766400 (-46).
Proof. reflexivity. Qed.

Lemma percentage_of_zero (value : Z) :
  Script.isFinite (Script.percentage value (Script.number 0)) = false.
Proof.
  unfold Script.percentage, Script.mul, Script.div. rewrite number_100.
  change (Script.number 0) with (S754_zero false).
  destruct (Script.number value) as [s|s| |s mant e]; reflexivity.
Qed.

Lemma elem_of_chart (dailyData : list (string * Z)) (bar : Script.Bar) :
  bar ∈ Script.chart dailyData ->
  exists day value,
    (day, value) ∈ dailyData /\
    Script.heightPercent bar = Script.percentage value (Script.maxValue dailyData).
Proof.
  unfold Script.chart. cbv zeta. intros Hin.
  apply elem_of_lookup_imap in Hin as (i & [day value] & -> & Hi).
  exists day, value. split; [|reflexivity].
  eapply list_elem_of_lookup_2, Hi.
Qed.

(** C7, as the code has it.  For the empty log the report has no table
    row, its total reads 0h 0m 0s, and the script draws no bar, so it
    divides nothing.  The script has no guard for a maximum of zero: when
    the largest daily total is 0, the height of every bar is its total
    divided by that 0 and times 100, which is [NaN] or an infinity and
    not a finite number. *)
Theorem empty_log_report :
  tableRows emptyLog = "" /\
  formatDuration (totalTimeMs emptyLog) = "0h 0m 0s" /\
  webviewHtml emptyLog
  = page_head +:+ "0h 0m 0s" +:+ page_body +:+ "" +:+ page_script +:+ "[]" +:+ page_tail /\
  Script.maxValue (JsMap.entries (dailyTotals emptyLog)) = Script.negInfinity /\
  chartBars emptyLog = [] /\
  (forall (u : UsageData) (bar : Script.Bar),
     Script.maxValue (JsMap.entries (dailyTotals u)) = Script.number 0 ->
     bar ∈ chartBars u ->
     (exists day value,
        (day, value) ∈ JsMap.entries (dailyTotals u) /\
        Script.heightPercent bar
        = Script.mul (Script.div (Script.number value) (Script.number 0))
                     (Script.number 100)) /\
     Script.isFinite (Script.heightPercent bar) = false).
Proof.
  repeat (split; [reflexivity|]).
  intros u bar Hmax Hin.
  apply elem_of_chart in Hin as (day & value & Hday & Hh).
  rewrite Hmax in Hh. split.
  - exists day, value. split; [exact Hday | exact Hh].
  - rewrite Hh. apply percentage_of_zero.
Qed.

Lemma empty_log_report_witness :
  Script.maxValue (JsMap.entries (dailyTotals idleLog)) = Script.number 0 /\
  Forall (fun bar => Script.isFinite (Script.heightPercent bar) = false) (chartBars idleLog).
Proof.
  split; [reflexivity|].
  apply Forall_forall. intros bar Hbar.
  apply (proj2 (proj2 (proj2 (proj2 (proj2 empty_log_report)))) idleLog bar eq_refl Hbar).
Defined.

(** The log of one session that started and ended in the same
    millisecond has the maximum daily total 0, and its bar gets 0 / 0,
    which is [NaN], for its height, not 0. *)
Lemma zero_maximum_divides_by_zero :
  Script.maxValue (JsMap.entries (dailyTotals idleLog)) = Script.number 0 /\
  map Script.heightPercent (chartBars idleLog)
  = [Script.mul (Script.div (Script.number 0) (Script.number 0)) (Script.number 100)] /\
  Script.mul (Script.div (Script.number 0) (Script.number 0)) (Script.number 100)
  = Script.NaN /\
  Script.NaN <> Script.number 0.
Proof. repeat split. discriminate. Qed.

(** ** A session from start to report *)

Example session_of_five_seconds :
  logOf (endCurrentSession jan1_5s (startNewSession jan1 (mkState None noMemento)))
  = {| sessions := [{| startTime := 1704067200000;
                       endTime := Some 1704067205000;
                       date := "2024-01-01";
                       duration := Some 5000 |}];
       totalTimeMs := 5000 |}.
Proof. reflexivity. Qed.

Example dailyTotals_of_five_seconds :
  dailyTotals (logOf (endCurrentSession jan1_5s
                        (startNewSession jan1 (mkState None noMemento))))
  = [("2024-01-01", 5000)].
Proof. reflexivity. Qed.

Example totalForDay_of_two :
  totalForDay [mkSession 0 (Some 1000) "2024-01-01" (Some 1000);
               mkSession 0 (Some 2000) "2024-01-01" (Some 2000)]
  = 3000.
Proof. reflexivity. Qed.

Example tableRows_of_two_days :
  tableRows {| sessions := [mkSession 0 (Some 1000) "2024-01-01" (Some 1000);
                             mkSession 0 (Some 2000) "2024-01-02" (Some 2000);
                             mkSession 0 None "2024-01-01" None];
               totalTimeMs := 3000 |}
  = tableRow "2024-01-02" "0h 0m 2s" "1" +:+ tableRow "2024-01-01" "0h 0m 1s" "2".
Proof. reflexivity. Qed.

Example chart_of_two_days :
  map Script.heightPercent
      (chartBars {| sessions := [mkSession 0 (Some 1000) "2024-01-01" (Some 1000);
                                 mkSession 0 (Some 2000) "2024-01-02" (Some 2000)];
                    totalTimeMs := 3000 |})
  = [Script.number 50; Script.number 100].
Proof. reflexivity. Qed.

(** * Further properties *)

(** ** The fields of a duration *)




(** ** Reading a duration back *)









(** ** Lives of the extension host *)

Lemma iter_showUsageStats (n : nat) (st : State) :
  Nat.iter n (fun st => fst (showUsageStats st)) st = st.
Proof. induction n as [|n IH]; simpl; [reflexivity | exact IH]. Qed.

Lemma load_lifetime (m : Memento) (life : Date * nat * Date) :
  loadUsageData (lifetime m life) = mergeSession (loadUsageData m) (sessionOfLife life).
Proof.
  destruct life as [[start shows] stop]. unfold lifetime, activate, deactivate.
  cbv zeta. simpl fst. rewrite iter_showUsageStats.
  apply load_saveSession.
Qed.

Lemma durationOrZero_sessionOfLife (life : Date * nat * Date) :
  durationOrZero (sessionOfLife life) = lengthOfLife life.
Proof. destruct life as [[start shows] stop]. reflexivity. Qed.

(** X5. Every life of the host, from [activate] to [deactivate] with
    any number of reports shown in between, appends one session to the
    persisted log, the one from the instant of activation to the instant
    of deactivation, and adds the milliseconds between the two to the
    total: after any number of lives the log holds their sessions in
    order and the total has grown by the sum of their lengths. *)
Theorem lifetimes_accumulate (lives : list (Date * nat * Date)) (m : Memento) :
  sessions (loadUsageData (lifetimes lives m))
  = (sessions (loadUsageData m) ++ map sessionOfLife lives)%list /\
  totalTimeMs (loadUsageData (lifetimes lives m))
  = totalTimeMs (loadUsageData m) + fold_right Z.add 0 (map lengthOfLife lives).
Proof.
  revert m. induction lives as [|life lives IH]; intros m.
  - simpl. rewrite app_nil_r. split; [reflexivity | lia].
  - change (lifetimes (life :: lives) m) with (lifetimes lives (lifetime m life)).
    destruct (IH (lifetime m life)) as [Hs Ht].
    rewrite Hs, Ht, load_lifetime, mergeSession_total, durationOrZero_sessionOfLife.
    split.
    + simpl. now rewrite <- app_assoc.
    + simpl. lia.
Qed.

(** ** Runs of calls *)

Lemma step_consistent (st : State) (c : Call) :
  consistent (logOf st) -> consistent (logOf (step st c)).
Proof.
  unfold consistent. intros H. destruct c as [now|now|]; simpl; try exact H.
  destruct (currentSession st) as [cur|] eqn:Hcur.
  - rewrite (logOf_endCurrentSession now st cur Hcur), mergeSession_total.
    simpl. rewrite sumDurations_app, H. simpl. lia.
  - now rewrite endCurrentSession_none.
Qed.

(** X7. A log whose total is the sum of the durations of its sessions
    keeps that through every run. *)
Theorem run_keeps_consistent (calls : list Call) (st : State) :
  consistent (logOf st) -> consistent (logOf (run calls st)).
Proof.
  revert st. induction calls as [|c calls IH]; intros st H; simpl; [exact H|].
  apply IH, step_consistent, H.
Qed.

Lemma run_keeps_consistent_witness :
  consistent (logOf initialState) /\
  consistent (logOf (run [CallStartNewSession jan1; CallShowUsageStats;
                          CallEndCurrentSession jan1_5s; CallStartNewSession jan2;
                          CallEndCurrentSession jan2]
                         initialState)).
Proof.
  assert (H : consistent (logOf initialState)) by reflexivity.
  split; [exact H|].
  apply (run_keeps_consistent _ initialState H).
Defined.

(** ** Runs under a clock that does not go back *)

Lemma hasDuration_sum (l : list UsageSession) : Forall hasDuration l -> 0 <= sumDurations l.
Proof.
  induction 1 as [|s l (d & Hd & Hpos) _ IH]; simpl; [lia|].
  unfold durationOrZero. rewrite Hd. lia.
Qed.

Lemma run_forward (calls : list Call) (st : State) :
  StronglySorted Z.le (clockReadings calls) ->
  (forall s, currentSession st = Some s -> Forall (Z.le (startTime s)) (clockReadings calls)) ->
  exists added,
    sessions (logOf (run calls st)) = (sessions (logOf st) ++ added)%list /\
    totalTimeMs (logOf (run calls st)) = totalTimeMs (logOf st) + sumDurations added /\
    Forall hasDuration added /\ Forall isClosed added.
Proof.
  revert st. induction calls as [|c calls IH]; intros st Hsorted Hslot.
  - exists []. simpl. rewrite app_nil_r. repeat split; try constructor. lia.
  - change (clockReadings (c :: calls)) with (clockOf c ++ clockReadings calls)%list in *.
    destruct c as [now|now|]; simpl in Hsorted, Hslot |- *.
    + apply StronglySorted_inv in Hsorted as [Hsorted Hall].
      apply (IH (startNewSession now st) Hsorted).
      intros s [= <-]. exact Hall.
    + apply StronglySorted_inv in Hsorted as [Hsorted Hall].
      destruct (currentSession st) as [cur|] eqn:Hcur.
      * destruct (IH (endCurrentSession now st) Hsorted) as (added & Hs & Ht & Hd & Hc).
        { intros s Hs. rewrite endCurrentSession_current in Hs. discriminate. }
        rewrite (logOf_endCurrentSession now st cur Hcur) in Hs, Ht.
        rewrite mergeSession_total in Ht. simpl in Hs, Ht.
        exists (closedAt now cur :: added). repeat split.
        -- now rewrite Hs, <- app_assoc.
        -- rewrite Ht. simpl. lia.
        -- constructor; [|exact Hd].
           exists (getTime now - startTime cur). split; [reflexivity|].
           specialize (Hslot cur eq_refl). apply Forall_cons in Hslot as [Hle _]. lia.
        -- constructor; [apply closedAt_isClosed | exact Hc].
      * rewrite (endCurrentSession_none now st Hcur).
        apply (IH st Hsorted). intros s Hs. congruence.
    + apply (IH st Hsorted Hslot).
Qed.

(** X8. When the instants a run reads from the clock never go back and
    no session is open at its start, every session the run appends is
    closed with a duration that is not negative, and the total of the log
    does not go down. *)
Theorem run_forward_clock (calls : list Call) (st : State) :
  currentSession st = None ->
  StronglySorted Z.le (clockReadings calls) ->
  exists added : list UsageSession,
    sessions (logOf (run calls st)) = (sessions (logOf st) ++ added)%list /\
    Forall hasDuration added /\
    Forall isClosed added /\
    totalTimeMs (logOf st) <= totalTimeMs (logOf (run calls st)).
Proof.
  intros Hnone Hsorted.
  destruct (run_forward calls st Hsorted) as (added & Hs & Ht & Hd & Hc).
  { intros s Hs. congruence. }
  exists added. repeat split; try assumption.
  pose proof (hasDuration_sum added Hd). lia.
Qed.

Lemma run_forward_clock_witness :
  exists added : list UsageSession,
    sessions (logOf (run [CallStartNewSession jan1; CallEndCurrentSession jan1_5s;
                          CallStartNewSession jan2; CallEndCurrentSession jan2]
                         initialState))
    = added /\
    Forall hasDuration added.
Proof.
  destruct (run_forward_clock
              [CallStartNewSession jan1; CallEndCurrentSession jan1_5s;
               CallStartNewSession jan2; CallEndCurrentSession jan2]
              initialState eq_refl) as (added & Hs & Hd & _).
  - unfold clockReadings. cbn.
    repeat (apply SSorted_cons;
            [|repeat (apply List.Forall_cons; [lia|]); apply List.Forall_nil]).
    apply SSorted_nil.
  - exists added. split; [exact Hs | exact Hd].
Defined.

(** ** The table does not depend on the order of the log *)

Lemma filter_Permutation_bool {A : Type} (f : A -> bool) (l l' : list A) :
  l ≡ₚ l' -> List.filter f l ≡ₚ List.filter f l'.
Proof.
  induction 1 as [|x l l' _ IH|x y l|l l' l'' _ IH1 _ IH2]; simpl.
  - reflexivity.
  - destruct (f x); [now constructor | exact IH].
  - destruct (f x), (f y); try reflexivity. apply perm_swap.
  - now transitivity (List.filter f l').
Qed.

Lemma strictlyAfter_antisym (a b : string) : strictlyAfter a b -> strictlyAfter b a -> a = b.
Proof.
  unfold strictlyAfter. intros H1 H2.
  rewrite String.compare_antisym, H2 in H1. discriminate.
Qed.

Lemma sortedDates_unique (l1 l2 : list string) :
  StronglySorted strictlyAfter l1 -> StronglySorted strictlyAfter l2 ->
  l1 ≡ₚ l2 -> l1 = l2.
Proof.
  intros H1 H2 Hp. eapply (StronglySorted_unique_strong strictlyAfter); try eassumption.
  intros x y _ _. apply strictlyAfter_antisym.
Qed.

Lemma reportRow_Permutation (u u' : UsageData) (d : string) :
  sessions u ≡ₚ sessions u' -> reportRow u d = reportRow u' d.
Proof.
  intros Hp. unfold reportRow.
  assert (Hf : sessionsOn d (sessions u) ≡ₚ sessionsOn d (sessions u'))
    by (apply filter_Permutation_bool, Hp).
  now rewrite (sumDurations_Permutation _ _ Hf), (Permutation_length Hf).
Qed.

(** X11. The table of the report depends on which sessions the log
    holds, not on their order: two logs that hold the same sessions in
    any order have the same dates in the same order and the same rows. *)
Theorem tableRows_order_free (u u' : UsageData) :
  sessions u ≡ₚ sessions u' ->
  sortedDates u = sortedDates u' /\ tableRows u = tableRows u'.
Proof.
  intros Hp.
  assert (Hd : sortedDates u = sortedDates u').
  { apply sortedDates_unique; try apply sortedDates_sorted.
    apply NoDup_Permutation.
    - rewrite sortedDates_Permutation. apply sessionsByDate_groups.
    - rewrite sortedDates_Permutation. apply sessionsByDate_groups.
    - intros d. rewrite !sortedDates_Permutation, !elem_of_keys_sessionsByDate.
      split; intros (s & Hs & Hdate); exists s; split; try assumption.
      + now rewrite <- Hp.
      + now rewrite Hp. }
  split; [exact Hd|].
  rewrite !tableRows_reportRow, Hd.
  f_equal. apply map_ext. intros d. now apply reportRow_Permutation.
Qed.

Lemma tableRows_order_free_witness :
  tableRows {| sessions := [idleSession; closedAt jan2 (openedAt jan1)]; totalTimeMs := 0 |}
  = tableRows {| sessions := [closedAt jan2 (openedAt jan1); idleSession]; totalTimeMs := 7 |}.
Proof.
  apply (tableRows_order_free
           {| sessions := [idleSession; closedAt jan2 (openedAt jan1)]; totalTimeMs := 0 |}
           {| sessions := [closedAt jan2 (openedAt jan1); idleSession]; totalTimeMs := 7 |}).
  apply perm_swap.
Defined.

(** ** Two lives of the host *)

Example two_lives :
  loadUsageData (lifetimes [(jan1, 2%nat, jan1_5s); (jan2, 0%nat, jan2)] noMemento)
  = {| sessions := [closedAt jan1_5s (openedAt jan1); closedAt jan2 (openedAt jan2)];
       totalTimeMs := 5000 |}.
Proof. reflexivity. Qed.
